(** * Geo point-distance searcher (bluge, search/searcher/search_geopointdistance.go)

    A shallow embedding of [NewGeoPointDistanceSearcher], [boxSearcher] and
    [buildDistFilter].  Go's [float64] is Rocq's primitive binary64 float,
    [uint] and document numbers are [N], [int64] is a [Z] whose conversion to
    [uint64] is written out, a term is a list of bytes.

    The functions of the file call into the rest of the engine (the index
    reader, the bounding-box, disjunction and filtering searchers, the numeric
    and geo packages).  Those collaborators are interfaces here: the
    construction code runs in a state monad over the collaborators' world and
    records every call it makes, in order, in a trace. *)

From Stdlib Require Import Floats ZArith NArith List Bool String Lia.
From Stdlib Require Import Strings.Byte.
From Stdlib Require Import Sorting.Permutation.
Import ListNotations.

Open Scope float_scope.

(** ** Data *)

(** [search.DocumentMatch]: the filter reads nothing but [Number]. *)
Record DocumentMatch := { Number : N }.

(** [FilterFunc] of the filtering searcher. *)
Definition FilterFunc := DocumentMatch -> bool.

(** A raw stored term, [[]byte]. *)
Definition Term := list byte.

(** The opaque types of the engine the file only passes around. *)
Class SearchTypes := {
  Reader : Type;               (* search.Reader *)
  Searcher : Type;             (* search.Searcher *)
  error : Type;                (* a non-nil Go error *)
  Scorer : Type;               (* search.Scorer *)
  CompositeScorer : Type;      (* search.CompositeScorer *)
  SearcherOptions : Type;      (* search.SearcherOptions *)
  DocumentValueReader : Type;  (* segment.DocumentValueReader *)
  World : Type                 (* whatever state the collaborators keep *)
}.

(** A Go result [(T, error)]: the error, or the value. *)
Definition result `{SearchTypes} (A : Type) : Type := (error + A)%type.

(** One call from this file into a collaborator, arguments in call order. *)
Inductive Event `{SearchTypes} : Type :=
| EvRectFromPointDistance (centerLon centerLat dist : float)
| EvGeoBoundingBox (indexReader : Reader)
    (minLon minLat maxLon maxLat : float)
    (field : string) (boost : float) (scorer : Scorer)
    (compScorer : CompositeScorer) (options : SearcherOptions)
    (checkBoundaries : bool) (precisionStep : N)
| EvDisjunction (indexReader : Reader) (qs : list Searcher) (min : Z)
    (scorer : CompositeScorer) (options : SearcherOptions)
| EvClose (s : Searcher)
| EvDocumentValueReader (indexReader : Reader) (fields : list string).

(** The collaborators.  The [ext_] functions may read and change the world
    and may fail; the others are pure. *)
Class Collaborators `{SearchTypes} := {
  (* geo.RectFromPointDistance: topLeftLon, topLeftLat, bottomRightLon,
     bottomRightLat, or an error *)
  ext_RectFromPointDistance :
    float -> float -> float -> result (float * float * float * float);
  ext_NewGeoBoundingBoxSearcher :
    Reader -> float -> float -> float -> float -> string -> float ->
    Scorer -> CompositeScorer -> SearcherOptions -> bool -> N ->
    World -> result Searcher * World;
  ext_NewDisjunctionSearcher :
    Reader -> list Searcher -> Z -> CompositeScorer -> SearcherOptions ->
    World -> result Searcher * World;
  (* Searcher.Close: nil or an error *)
  ext_Close : Searcher -> World -> option error * World;
  ext_DocumentValueReader :
    Reader -> list string -> World -> result DocumentValueReader * World;
  (* similarity.NewCompositeSumScorer() *)
  NewCompositeSumScorer : CompositeScorer;
  NewFilteringSearcher : Searcher -> FilterFunc -> Searcher;
  (* dvReader.VisitDocumentValues(number, visitor): the (field, term) pairs
     the visitor is called on, in order, and the error returned at the end *)
  VisitDocumentValues :
    DocumentValueReader -> N -> list (string * Term) * option error;
  (* numeric.PrefixCoded(term).Shift() and .Int64() *)
  Shift : Term -> result N;
  Int64 : Term -> result Z;
  (* geo.MortonUnhashLon, geo.MortonUnhashLat on a uint64 *)
  MortonUnhashLon : Z -> float;
  MortonUnhashLat : Z -> float;
  (* geo.Haversin(lon1, lat1, lon2, lat2) *)
  Haversin : float -> float -> float -> float -> float
}.

(** Go's conversion [uint64(i64)] of an [int64]. *)
Definition uint64 (i64 : Z) : Z := (i64 mod 2 ^ 64)%Z.

(** ** The construction monad: world and trace of calls *)

Section Construction.
Context `{C : Collaborators}.

Definition St : Type := (World * list Event)%type.
Definition M (A : Type) : Type := St -> A * St.

Definition ret {A} (a : A) : M A := fun s => (a, s).
Definition bind {A B} (m : M A) (k : A -> M B) : M B :=
  fun s => let (a, s') := m s in k a s'.

(** A call to a collaborator: run it on the world, append the event. *)
Definition call {A} (ev : Event) (f : World -> A * World) : M A :=
  fun s => let (a, w') := f (fst s) in (a, (w', snd s ++ [ev])).

Notation "x <- m ;; k" := (bind m (fun x => k))
  (at level 61, m at next level, right associativity).

Definition RectFromPointDistance (centerLon centerLat dist : float)
  : M (result (float * float * float * float)) :=
  call (EvRectFromPointDistance centerLon centerLat dist)
       (fun w => (ext_RectFromPointDistance centerLon centerLat dist, w)).

Definition NewGeoBoundingBoxSearcher (indexReader : Reader)
    (minLon minLat maxLon maxLat : float) (field : string) (boost : float)
    (scorer : Scorer) (compScorer : CompositeScorer)
    (options : SearcherOptions) (checkBoundaries : bool) (precisionStep : N)
  : M (result Searcher) :=
  call (EvGeoBoundingBox indexReader minLon minLat maxLon maxLat field boost
          scorer compScorer options checkBoundaries precisionStep)
       (ext_NewGeoBoundingBoxSearcher indexReader minLon minLat maxLon maxLat
          field boost scorer compScorer options checkBoundaries precisionStep).

Definition NewDisjunctionSearcher (indexReader : Reader)
    (qs : list Searcher) (min : Z) (scorer : CompositeScorer)
    (options : SearcherOptions) : M (result Searcher) :=
  call (EvDisjunction indexReader qs min scorer options)
       (ext_NewDisjunctionSearcher indexReader qs min scorer options).

Definition Close (s : Searcher) : M (option error) :=
  call (EvClose s) (ext_Close s).

Definition GetDocumentValueReader (indexReader : Reader)
    (fields : list string) : M (result DocumentValueReader) :=
  call (EvDocumentValueReader indexReader fields)
       (ext_DocumentValueReader indexReader fields).

(** ** boxSearcher *)

Definition boxSearcher (indexReader : Reader)
    (topLeftLon topLeftLat bottomRightLon bottomRightLat : float)
    (field : string) (boost : float) (scorer : Scorer)
    (compScorer : CompositeScorer) (options : SearcherOptions)
    (checkBoundaries : bool) (precisionStep : N) : M (result Searcher) :=
  if bottomRightLon <? topLeftLon then
    (* cross date line, rewrite as two parts *)
    leftRes <- NewGeoBoundingBoxSearcher indexReader
                 (-180) bottomRightLat bottomRightLon topLeftLat
                 field boost scorer compScorer options
                 checkBoundaries precisionStep ;;
    match leftRes with
    | inl err => ret (inl err)
    | inr leftSearcher =>
      rightRes <- NewGeoBoundingBoxSearcher indexReader
                    topLeftLon bottomRightLat 180 topLeftLat
                    field boost scorer compScorer options
                    checkBoundaries precisionStep ;;
      match rightRes with
      | inl err =>
        _ <- Close leftSearcher ;;
        ret (inl err)
      | inr rightSearcher =>
        boxRes <- NewDisjunctionSearcher indexReader
                    [leftSearcher; rightSearcher] 0
                    NewCompositeSumScorer options ;;
        match boxRes with
        | inl err =>
          _ <- Close leftSearcher ;;
          _ <- Close rightSearcher ;;
          ret (inl err)
        | inr boxSearcher => ret (inr boxSearcher)
        end
      end
    end
  else
    (* build geoboundingbox searcher for that bounding box *)
    boxRes <- NewGeoBoundingBoxSearcher indexReader
                topLeftLon bottomRightLat bottomRightLon topLeftLat
                field boost scorer compScorer options
                checkBoundaries precisionStep ;;
    match boxRes with
    | inl err => ret (inl err)
    | inr boxSearcher => ret (inr boxSearcher)
    end.

(** ** buildDistFilter *)

(** The variables the visitor closure captures: [lons], [lats], [found]. *)
Record Visited := { lons : list float; lats : list float; found : bool }.

Definition noneVisited : Visited :=
  {| lons := []; lats := []; found := false |}.

(** The visitor passed to [VisitDocumentValues], on one (field, term). *)
Definition visitor (v : Visited) (field : string) (term : Term) : Visited :=
  (* only consider the values which are shifted 0 *)
  match Shift term with
  | inr shift =>
    if (shift =? 0)%N then
      match Int64 term with
      | inr i64 =>
        {| lons := lons v ++ [MortonUnhashLon (uint64 i64)];
           lats := lats v ++ [MortonUnhashLat (uint64 i64)];
           found := true |}
      | inl _ => v
      end
    else v
  | inl _ => v
  end.

Definition visitAll (terms : list (string * Term)) (v : Visited) : Visited :=
  fold_left (fun v ft => visitor v (fst ft) (snd ft)) terms v.

(** [for i := range lons]: indices in order, returning at the first hit.
    [lats[i]] is read at the same index; [visitAll_lengths] below shows
    the index is always in range. *)
Definition withinLoop (v : Visited) (centerLon centerLat maxDist : float)
  : bool :=
  existsb
    (fun i =>
       let dist := Haversin (nth i (lons v) 0) (nth i (lats v) 0)
                     centerLon centerLat in
       dist <=? maxDist / 1000)
    (seq 0 (List.length (lons v))).

Definition buildDistFilter (dvReader : DocumentValueReader)
    (centerLon centerLat maxDist : float) : FilterFunc :=
  fun d =>
    let (terms, err) := VisitDocumentValues dvReader (Number d) in
    let v := visitAll terms noneVisited in
    match err with
    | None =>
      if found v then withinLoop v centerLon centerLat maxDist else false
    | Some _ => false
    end.

(** ** NewGeoPointDistanceSearcher *)

Definition NewGeoPointDistanceSearcher (indexReader : Reader)
    (centerLon centerLat dist : float) (field : string) (boost : float)
    (scorer : Scorer) (compScorer : CompositeScorer)
    (options : SearcherOptions) (precisionStep : N) : M (result Searcher) :=
  (* compute bounding box containing the circle *)
  rectRes <- RectFromPointDistance centerLon centerLat dist ;;
  match rectRes with
  | inl err => ret (inl err)
  | inr (topLeftLon, topLeftLat, bottomRightLon, bottomRightLat) =>
    (* build a searcher for the box *)
    boxRes <- boxSearcher indexReader
                topLeftLon topLeftLat bottomRightLon bottomRightLat
                field boost scorer compScorer options false precisionStep ;;
    match boxRes with
    | inl err => ret (inl err)
    | inr box =>
      dvRes <- GetDocumentValueReader indexReader [field] ;;
      match dvRes with
      | inl err => ret (inl err)
      | inr dvReader =>
        (* wrap it in a filtering searcher which checks the actual distance *)
        ret (inr (NewFilteringSearcher box
                    (buildDistFilter dvReader centerLon centerLat dist)))
      end
    end
  end.

(** ** Vocabulary of the statements *)

(** The full-precision code of a term, when the visitor takes one from it. *)
Definition decodedCode (term : Term) : option Z :=
  match Shift term, Int64 term with
  | inr 0%N, inr i64 => Some (uint64 i64)
  | _, _ => None
  end.

(** The full-precision codes of a visited sequence, in visiting order. *)
Definition codes (terms : list (string * Term)) : list Z :=
  flat_map (fun ft => match decodedCode (snd ft) with
                      | Some u => [u]
                      | None => []
                      end) terms.

(** The test of the loop body on the point of a code. *)
Definition within (centerLon centerLat maxDist : float) (u : Z) : bool :=
  Haversin (MortonUnhashLon u) (MortonUnhashLat u) centerLon centerLat
  <=? maxDist / 1000.

(** A term whose shift decodes and is greater than 0. *)
Definition coarse (term : Term) : bool :=
  match Shift term with
  | inr shift => (0 <? shift)%N
  | inl _ => false
  end.

(** The visited sequence without its coarse terms. *)
Definition dropCoarse (terms : list (string * Term)) : list (string * Term) :=
  filter (fun ft => negb (coarse (snd ft))) terms.

(** [checkBoundaries] of a bounding-box construction, no boundary check. *)
Definition noBoundaryCheck (ev : Event) : bool :=
  match ev with
  | EvGeoBoundingBox _ _ _ _ _ _ _ _ _ _ checkBoundaries _ =>
    negb checkBoundaries
  | _ => true
  end.

Definition isClose (ev : Event) : bool :=
  match ev with EvClose _ => true | _ => false end.

End Construction.

(** ** Test doubles

    A small engine to run the code on: searchers are plain descriptions of
    what was built, the world is a script of outcomes for the fallible
    constructors (consumed one per call, [None] for success, nothing left
    means success), [Close] always reports an error of its own, and the codec
    and the geometry are simple stand-ins for the numeric and geo packages. *)

Module Mock.

#[warnings="-register-all"]
Inductive MSearcher : Type :=
| MBox (minLon minLat maxLon maxLat : float) (checkBoundaries : bool)
| MDisj (qs : list MSearcher) (min : Z) (scorer : string)
| MFilter (child : MSearcher) (accept : FilterFunc).

#[export] Instance types : SearchTypes := {|
  Reader := unit;
  Searcher := MSearcher;
  error := string;
  Scorer := unit;
  CompositeScorer := string;
  SearcherOptions := unit;
  DocumentValueReader := unit;
  World := list (option string)
|}.

Definition next (w : list (option string))
  : option string * list (option string) :=
  match w with
  | [] => (None, [])
  | o :: w' => (o, w')
  end.

Definition scripted {A} (a : A) (w : list (option string))
  : (string + A) * list (option string) :=
  match next w with
  | (Some e, w') => (inl e, w')
  | (None, w') => (inr a, w')
  end.

Definition wrapLon (x : float) : float :=
  if 180 <? x then x - 360 else if x <? -180 then x + 360 else x.

Definition rect (lon lat dist : float)
  : string + (float * float * float * float) :=
  if dist <? 0 then inl "negative distance"%string
  else
    let deg := dist / 111000 in
    inr (wrapLon (lon - deg), lat + deg, wrapLon (lon + deg), lat - deg).

Definition shift (term : Term) : string + N :=
  match term with
  | [] => inl "empty term"%string
  | b :: _ =>
    if (Byte.to_N b <? 32)%N then inl "bad shift"%string
    else inr (Byte.to_N b - 32)%N
  end.

Definition int64 (term : Term) : string + Z :=
  match term with
  | [_; lon; lat] =>
    inr (Z.of_N (Byte.to_N lon) * 256 + Z.of_N (Byte.to_N lat))%Z
  | _ => inl "bad length"%string
  end.

Definition unhashLon (u : Z) : float := of_uint63 (Uint63.of_Z (u / 256)).
Definition unhashLat (u : Z) : float := of_uint63 (Uint63.of_Z (u mod 256)).

Definition taxicab (lon1 lat1 lon2 lat2 : float) : float :=
  abs (lon1 - lon2) + abs (lat1 - lat2).

Definition near : string * Term := ("loc"%string, [x20; x0a; x0b]).
Definition far : string * Term := ("loc"%string, [x20; x64; x64]).
Definition coarseNear : string * Term := ("loc"%string, [x21; x0a; x0a]).
Definition noShift : string * Term := ("loc"%string, []).
Definition noInt64 : string * Term := ("loc"%string, [x20]).

Definition docs (number : N) : list (string * Term) * option string :=
  match number with
  | 0%N => ([near], None)
  | 1%N => ([far; near], None)
  | 2%N => ([far], None)
  | 3%N => ([near], Some "read failed"%string)
  | 4%N => ([coarseNear; far], None)
  | 5%N => ([noShift; noInt64; near], None)
  | 6%N => ([far; noInt64], None)
  | 7%N => ([noInt64; near], None)
  | _ => ([], None)
  end.

#[export] Instance engine : Collaborators := {|
  ext_RectFromPointDistance := rect;
  ext_NewGeoBoundingBoxSearcher :=
    fun _ minLon minLat maxLon maxLat _ _ _ _ _ checkBoundaries _ =>
      scripted (MBox minLon minLat maxLon maxLat checkBoundaries);
  ext_NewDisjunctionSearcher :=
    fun _ qs min scorer _ => scripted (MDisj qs min scorer);
  ext_Close := fun _ w => (Some "close failed"%string, w);
  ext_DocumentValueReader := fun _ _ => scripted tt;
  NewCompositeSumScorer := "sum"%string;
  NewFilteringSearcher := MFilter;
  VisitDocumentValues := fun _ => docs;
  Shift := shift;
  Int64 := int64;
  MortonUnhashLon := unhashLon;
  MortonUnhashLat := unhashLat;
  Haversin := taxicab
|}.

(** The field of the queries and the candidate for a document number. *)
Definition loc : string := "loc"%string.
Definition q (number : N) : DocumentMatch := {| Number := number |}.

End Mock.

(** The same engine over a few more documents: document 8 is document 1 in
    the other order, document 9 is document 0 under another field name. *)
Module MockMore.
Import Mock.

Definition docs (number : N) : list (string * Term) * option string :=
  match number with
  | 8%N => ([near; far], None)
  | 9%N => ([("geo"%string, snd near)], None)
  | _ => Mock.docs number
  end.

#[export] Instance engine : Collaborators := {|
  ext_RectFromPointDistance := rect;
  ext_NewGeoBoundingBoxSearcher :=
    fun _ minLon minLat maxLon maxLat _ _ _ _ _ checkBoundaries _ =>
      scripted (MBox minLon minLat maxLon maxLat checkBoundaries);
  ext_NewDisjunctionSearcher :=
    fun _ qs min scorer _ => scripted (MDisj qs min scorer);
  ext_Close := fun _ w => (Some "close failed"%string, w);
  ext_DocumentValueReader := fun _ _ => scripted tt;
  NewCompositeSumScorer := "sum"%string;
  NewFilteringSearcher := MFilter;
  VisitDocumentValues := fun _ => docs;
  Shift := shift;
  Int64 := int64;
  MortonUnhashLon := unhashLon;
  MortonUnhashLat := unhashLat;
  Haversin := taxicab
|}.

End MockMore.

(** ** Vocabulary of the further statements *)

Section Forwarding.
Context `{C : Collaborators}.

(** An event [boxSearcher] may emit when called with these arguments: a
    bounding-box construction between the two latitudes that passes the
    reader, the field, the scoring arguments, the options, [checkBoundaries]
    and [precisionStep] on; a disjunction of two searchers with minimum 0 and
    the sum composite scorer; or a [Close]. *)
Definition forwards (indexReader : Reader)
    (topLeftLat bottomRightLat : float)
    (field : string) (boost : float) (scorer : Scorer)
    (compScorer : CompositeScorer) (options : SearcherOptions)
    (checkBoundaries : bool) (precisionStep : N) (ev : Event) : Prop :=
  match ev with
  | EvGeoBoundingBox r _ minLat _ maxLat f b s cs o cb ps =>
    r = indexReader /\ minLat = bottomRightLat /\ maxLat = topLeftLat /\
    f = field /\ b = boost /\ s = scorer /\ cs = compScorer /\
    o = options /\ cb = checkBoundaries /\ ps = precisionStep
  | EvDisjunction r qs min sc o =>
    r = indexReader /\ List.length qs = 2%nat /\ min = 0%Z /\
    sc = NewCompositeSumScorer /\ o = options
  | EvClose _ => True
  | EvRectFromPointDistance _ _ _ => False
  | EvDocumentValueReader _ _ => False
  end.

(** A bounding-box construction asked for without boundary checking. *)
Definition isUncheckedBox (ev : Event) : bool :=
  match ev with
  | EvGeoBoundingBox _ _ _ _ _ _ _ _ _ _ checkBoundaries _ =>
    negb checkBoundaries
  | _ => false
  end.

End Forwarding.

(** * Properties *)

(** [a <= b] on binary64 excludes [b < a]; no NaN satisfies the premise. *)
Lemma SFleb_SFltb_false (a b : spec_float) :
  SFleb a b = true -> SFltb b a = false.
Proof.
  unfold SFleb, SFltb.
  destruct a as [sa|sa| |sa ma ea], b as [sb|sb| |sb mb eb]; simpl;
    try destruct sa; try destruct sb; simpl; try congruence.
  - rewrite (Z.compare_antisym ea eb).
    destruct (Z.compare_spec ea eb); simpl; try congruence.
    rewrite (Pos.compare_cont_antisym mb ma Eq). simpl.
    destruct (Pos.compare_cont Eq ma mb); simpl; congruence.
  - rewrite (Z.compare_antisym ea eb).
    destruct (Z.compare_spec ea eb); simpl; try congruence.
    rewrite (ZC4 mb ma).
    destruct (Pos.compare_cont Eq ma mb); simpl; congruence.
Qed.

Lemma leb_ltb_false (a b : float) : (a <=? b) = true -> (b <? a) = false.
Proof. rewrite leb_spec, ltb_spec. apply SFleb_SFltb_false. Qed.

(** A NaN is what [is_nan] says it is, and compares false with everything. *)
Lemma is_nan_Prim2SF (x : float) : is_nan x = true -> Prim2SF x = S754_nan.
Proof.
  unfold is_nan. rewrite FloatAxioms.eqb_spec. unfold SFeqb.
  destruct (Prim2SF x) as [s | s | | s m e]; cbn [SFcompare];
    try reflexivity.
  - discriminate.
  - destruct s; discriminate.
  - rewrite Z.compare_refl, Pos.compare_cont_refl.
    destruct s; discriminate.
Qed.

Lemma ltb_nan (a b : float) :
  is_nan a = true \/ is_nan b = true -> (a <? b) = false.
Proof.
  rewrite ltb_spec. unfold SFltb.
  intros [Ha | Hb].
  - rewrite (is_nan_Prim2SF a Ha). reflexivity.
  - rewrite (is_nan_Prim2SF b Hb). destruct (Prim2SF a); reflexivity.
Qed.

Lemma leb_nan_r (a b : float) : is_nan b = true -> (a <=? b) = false.
Proof.
  intros Hb. rewrite leb_spec. unfold SFleb.
  rewrite (is_nan_Prim2SF b Hb). destruct (Prim2SF a); reflexivity.
Qed.

Lemma div_nan_l (a b : float) : is_nan a = true -> is_nan (a / b) = true.
Proof.
  intros Ha. unfold is_nan at 1. rewrite FloatAxioms.eqb_spec, div_spec.
  rewrite (is_nan_Prim2SF a Ha). reflexivity.
Qed.

Section ConstructionProperties.
Context `{C : Collaborators}.

Lemma call_run {A} (ev : Event) (f : World -> A * World) (w : World)
    (tr : list Event) :
  call ev f (w, tr) = (fst (f w), (snd (f w), tr ++ [ev])).
Proof. unfold call; simpl. destruct (f w); reflexivity. Qed.

Lemma bind_run {A B} (m : M A) (k : A -> M B) (s : St) :
  bind m k s = k (fst (m s)) (snd (m s)).
Proof. unfold bind. destruct (m s); reflexivity. Qed.

Lemma ret_run {A} (a : A) (s : St) : ret a s = (a, s).
Proof. reflexivity. Qed.

(** Unfold one layer of monadic code down to the collaborators' results. *)
Ltac run :=
  unfold NewGeoBoundingBoxSearcher, NewDisjunctionSearcher, Close,
    GetDocumentValueReader, RectFromPointDistance;
  repeat (rewrite ?bind_run, ?call_run, ?ret_run; cbn [fst snd]).

Ltac tidy := rewrite <- ?app_assoc; cbn [app]; try reflexivity.

(** C8: when [topLeftLon <= bottomRightLon] (no antimeridian crossing)
    [boxSearcher] makes one collaborator call, the bounding-box constructor
    over [topLeftLon, bottomRightLat, bottomRightLon, topLeftLat], and returns
    what that call returned: no split, no disjunction, no close. *)
Theorem boxSearcher_no_crossing_single_box
    (indexReader : Reader)
    (topLeftLon topLeftLat bottomRightLon bottomRightLat : float)
    (field : string) (boost : float) (scorer : Scorer)
    (compScorer : CompositeScorer) (options : SearcherOptions)
    (checkBoundaries : bool) (precisionStep : N)
    (w : World) (tr : list Event) :
  (topLeftLon <=? bottomRightLon) = true ->
  let built :=
    ext_NewGeoBoundingBoxSearcher indexReader
      topLeftLon bottomRightLat bottomRightLon topLeftLat
      field boost scorer compScorer options checkBoundaries precisionStep w in
  boxSearcher indexReader topLeftLon topLeftLat bottomRightLon bottomRightLat
    field boost scorer compScorer options checkBoundaries precisionStep
    (w, tr)
  = (fst built,
     (snd built,
      tr ++ [EvGeoBoundingBox indexReader
               topLeftLon bottomRightLat bottomRightLon topLeftLat
               field boost scorer compScorer options
               checkBoundaries precisionStep])).
Proof.
  intros Hge built. subst built. unfold boxSearcher.
  rewrite (leb_ltb_false _ _ Hge). run.
  destruct (ext_NewGeoBoundingBoxSearcher _ _ _ _ _ _ _ _ _ _ _ _ w)
    as [[err|box] w']; reflexivity.
Qed.

(** C1: when [bottomRightLon < topLeftLon] and the collaborators' constructors
    succeed, [boxSearcher] builds two bounding-box searchers, the left over
    [-180, bottomRightLat, bottomRightLon, topLeftLat] and then the right over
    [topLeftLon, bottomRightLat, 180, topLeftLat], makes one more call, the
    disjunction of the two in that order with minimum 0 and the sum composite
    scorer, and returns that disjunction. *)
Theorem boxSearcher_dateline_split
    (indexReader : Reader)
    (topLeftLon topLeftLat bottomRightLon bottomRightLat : float)
    (field : string) (boost : float) (scorer : Scorer)
    (compScorer : CompositeScorer) (options : SearcherOptions)
    (checkBoundaries : bool) (precisionStep : N)
    (w w1 w2 w3 : World) (tr : list Event)
    (leftSearcher rightSearcher disjunction : Searcher) :
  (bottomRightLon <? topLeftLon) = true ->
  ext_NewGeoBoundingBoxSearcher indexReader
    (-180) bottomRightLat bottomRightLon topLeftLat
    field boost scorer compScorer options checkBoundaries precisionStep w
  = (inr leftSearcher, w1) ->
  ext_NewGeoBoundingBoxSearcher indexReader
    topLeftLon bottomRightLat 180 topLeftLat
    field boost scorer compScorer options checkBoundaries precisionStep w1
  = (inr rightSearcher, w2) ->
  ext_NewDisjunctionSearcher indexReader [leftSearcher; rightSearcher] 0
    NewCompositeSumScorer options w2
  = (inr disjunction, w3) ->
  boxSearcher indexReader topLeftLon topLeftLat bottomRightLon bottomRightLat
    field boost scorer compScorer options checkBoundaries precisionStep
    (w, tr)
  = (inr disjunction,
     (w3,
      tr ++ [EvGeoBoundingBox indexReader
               (-180) bottomRightLat bottomRightLon topLeftLat
               field boost scorer compScorer options
               checkBoundaries precisionStep;
             EvGeoBoundingBox indexReader
               topLeftLon bottomRightLat 180 topLeftLat
               field boost scorer compScorer options
               checkBoundaries precisionStep;
             EvDisjunction indexReader [leftSearcher; rightSearcher] 0
               NewCompositeSumScorer options])).
Proof.
  intros Hcross Hleft Hright Hdisj. unfold boxSearcher.
  rewrite Hcross. run. rewrite Hleft; cbn [fst snd]. run.
  rewrite Hright; cbn [fst snd]. run. rewrite Hdisj; cbn [fst snd]. run.
  tidy.
Qed.

(** C6: in the dateline-split path, after the left searcher was built:
    if the right construction fails, [boxSearcher] closes the left searcher,
    once, and returns the right construction's error; if both were built and
    the disjunction construction fails, it closes the left and then the right
    searcher and returns the disjunction construction's error.  Whatever the
    [Close] calls return is discarded. *)
Theorem boxSearcher_dateline_cleanup
    (indexReader : Reader)
    (topLeftLon topLeftLat bottomRightLon bottomRightLat : float)
    (field : string) (boost : float) (scorer : Scorer)
    (compScorer : CompositeScorer) (options : SearcherOptions)
    (checkBoundaries : bool) (precisionStep : N)
    (w w1 w2 : World) (tr : list Event) (leftSearcher : Searcher) :
  (bottomRightLon <? topLeftLon) = true ->
  ext_NewGeoBoundingBoxSearcher indexReader
    (-180) bottomRightLat bottomRightLon topLeftLat
    field boost scorer compScorer options checkBoundaries precisionStep w
  = (inr leftSearcher, w1) ->
  let evLeft :=
    EvGeoBoundingBox indexReader
      (-180) bottomRightLat bottomRightLon topLeftLat
      field boost scorer compScorer options checkBoundaries precisionStep in
  let evRight :=
    EvGeoBoundingBox indexReader
      topLeftLon bottomRightLat 180 topLeftLat
      field boost scorer compScorer options checkBoundaries precisionStep in
  let out :=
    boxSearcher indexReader
      topLeftLon topLeftLat bottomRightLon bottomRightLat
      field boost scorer compScorer options checkBoundaries precisionStep
      (w, tr) in
  (forall err : error,
      ext_NewGeoBoundingBoxSearcher indexReader
        topLeftLon bottomRightLat 180 topLeftLat
        field boost scorer compScorer options checkBoundaries precisionStep w1
      = (inl err, w2) ->
      out = (inl err,
             (snd (ext_Close leftSearcher w2),
              tr ++ [evLeft; evRight; EvClose leftSearcher])))
  /\
  (forall (rightSearcher : Searcher) (err : error) (w3 : World),
      ext_NewGeoBoundingBoxSearcher indexReader
        topLeftLon bottomRightLat 180 topLeftLat
        field boost scorer compScorer options checkBoundaries precisionStep w1
      = (inr rightSearcher, w2) ->
      ext_NewDisjunctionSearcher indexReader [leftSearcher; rightSearcher] 0
        NewCompositeSumScorer options w2
      = (inl err, w3) ->
      out = (inl err,
             (snd (ext_Close rightSearcher (snd (ext_Close leftSearcher w3))),
              tr ++ [evLeft; evRight;
                     EvDisjunction indexReader [leftSearcher; rightSearcher]
                       0 NewCompositeSumScorer options;
                     EvClose leftSearcher; EvClose rightSearcher]))).
Proof.
  intros Hcross Hleft evLeft evRight out. subst evLeft evRight out.
  unfold boxSearcher. rewrite Hcross. run. rewrite Hleft; cbn [fst snd].
  split.
  - intros err Hright. run. rewrite Hright; cbn [fst snd]. run. tidy.
  - intros rightSearcher err w3 Hright Hdisj. run.
    rewrite Hright; cbn [fst snd]. run. rewrite Hdisj; cbn [fst snd]. run.
    tidy.
Qed.

(** Destruct the result of the next collaborator call in the goal. *)
Ltac crack :=
  match goal with
  | |- context [fst ?x] =>
    lazymatch x with
    | (_, _) => fail
    | _ => first [ destruct x as [[?|?] ?] | destruct x as [? ?] ]
    end; cbn [fst snd]
  end.

(** [boxSearcher] only appends to the trace, and every bounding-box
    construction it asks for carries the [checkBoundaries] it was given. *)
Lemma boxSearcher_trace
    (indexReader : Reader)
    (topLeftLon topLeftLat bottomRightLon bottomRightLat : float)
    (field : string) (boost : float) (scorer : Scorer)
    (compScorer : CompositeScorer) (options : SearcherOptions)
    (precisionStep : N) (w : World) (tr : list Event) :
  exists evs : list Event,
    snd (snd (boxSearcher indexReader
                topLeftLon topLeftLat bottomRightLon bottomRightLat
                field boost scorer compScorer options false precisionStep
                (w, tr)))
    = tr ++ evs
    /\ forallb noBoundaryCheck evs = true.
Proof.
  unfold boxSearcher. destruct (bottomRightLon <? topLeftLon); run;
    repeat (crack; run); rewrite <- ?app_assoc; cbn [app];
    eexists; (split; [reflexivity | reflexivity]).
Qed.

(** [NewGeoPointDistanceSearcher], step by step on the collaborators'
    results. *)
Lemma NewGeoPointDistanceSearcher_steps
    (indexReader : Reader) (centerLon centerLat dist : float)
    (field : string) (boost : float) (scorer : Scorer)
    (compScorer : CompositeScorer) (options : SearcherOptions)
    (precisionStep : N) (w : World) (tr : list Event) :
  let out :=
    NewGeoPointDistanceSearcher indexReader centerLon centerLat dist
      field boost scorer compScorer options precisionStep (w, tr) in
  let tr0 := tr ++ [EvRectFromPointDistance centerLon centerLat dist] in
  match ext_RectFromPointDistance centerLon centerLat dist with
  | inl err => out = (inl err, (w, tr0))
  | inr (topLeftLon, topLeftLat, bottomRightLon, bottomRightLat) =>
    match boxSearcher indexReader
            topLeftLon topLeftLat bottomRightLon bottomRightLat
            field boost scorer compScorer options false precisionStep
            (w, tr0) with
    | (inl err, s1) => out = (inl err, s1)
    | (inr box, (w1, tr1)) =>
      let tr2 := tr1 ++ [EvDocumentValueReader indexReader [field]] in
      match ext_DocumentValueReader indexReader [field] w1 with
      | (inl err, w2) => out = (inl err, (w2, tr2))
      | (inr dvReader, w2) =>
        out = (inr (NewFilteringSearcher box
                      (buildDistFilter dvReader centerLon centerLat dist)),
               (w2, tr2))
      end
    end
  end.
Proof.
  intros out tr0. subst out tr0. unfold NewGeoPointDistanceSearcher. run.
  destruct (ext_RectFromPointDistance centerLon centerLat dist)
    as [err | [[[topLeftLon topLeftLat] bottomRightLon] bottomRightLat]];
    [reflexivity|].
  run.
  destruct (boxSearcher _ _ _ _ _ _ _ _ _ _ _ _ _) as [[err | box] [w1 tr1]];
    cbn [fst snd]; [reflexivity|].
  run.
  destruct (ext_DocumentValueReader indexReader [field] w1)
    as [[err | dvReader] w2]; reflexivity.
Qed.

(** C7: [NewGeoPointDistanceSearcher] runs its three steps once each and in
    order, stopping at the first that fails.  If the rectangle computation
    fails, or else the box searcher construction fails, or else acquiring the
    document value reader fails, it returns that step's error as it is; if all
    three succeed it returns the box searcher wrapped by the filtering
    searcher with the distance predicate of the acquired reader, the query
    center and the distance.  It returns an error in no other case. *)
Theorem NewGeoPointDistanceSearcher_outcome
    (indexReader : Reader) (centerLon centerLat dist : float)
    (field : string) (boost : float) (scorer : Scorer)
    (compScorer : CompositeScorer) (options : SearcherOptions)
    (precisionStep : N) (w : World) (tr : list Event) :
  let out :=
    NewGeoPointDistanceSearcher indexReader centerLon centerLat dist
      field boost scorer compScorer options precisionStep (w, tr) in
  let rectRes := ext_RectFromPointDistance centerLon centerLat dist in
  let tr0 := tr ++ [EvRectFromPointDistance centerLon centerLat dist] in
  let boxRun :=
    fun '(topLeftLon, topLeftLat, bottomRightLon, bottomRightLat) =>
      boxSearcher indexReader
        topLeftLon topLeftLat bottomRightLon bottomRightLat
        field boost scorer compScorer options false precisionStep
        (w, tr0) in
  let evReader := EvDocumentValueReader indexReader [field] in
  (forall err, rectRes = inl err -> out = (inl err, (w, tr0)))
  /\
  (forall rect err s1,
      rectRes = inr rect -> boxRun rect = (inl err, s1) ->
      out = (inl err, s1))
  /\
  (forall rect box w1 tr1 err w2,
      rectRes = inr rect -> boxRun rect = (inr box, (w1, tr1)) ->
      ext_DocumentValueReader indexReader [field] w1 = (inl err, w2) ->
      out = (inl err, (w2, tr1 ++ [evReader])))
  /\
  (forall rect box w1 tr1 dvReader w2,
      rectRes = inr rect -> boxRun rect = (inr box, (w1, tr1)) ->
      ext_DocumentValueReader indexReader [field] w1 = (inr dvReader, w2) ->
      out = (inr (NewFilteringSearcher box
                    (buildDistFilter dvReader centerLon centerLat dist)),
             (w2, tr1 ++ [evReader])))
  /\
  (forall err,
      fst out = inl err ->
      rectRes = inl err
      \/ (exists rect s1, rectRes = inr rect /\ boxRun rect = (inl err, s1))
      \/ (exists rect box w1 tr1 w2,
             rectRes = inr rect /\ boxRun rect = (inr box, (w1, tr1)) /\
             ext_DocumentValueReader indexReader [field] w1 = (inl err, w2))).
Proof.
  intros out rectRes tr0 boxRun evReader.
  pose proof (NewGeoPointDistanceSearcher_steps indexReader centerLon
                centerLat dist field boost scorer compScorer options
                precisionStep w tr) as Hout.
  cbv zeta in Hout. fold out rectRes tr0 in Hout.
  destruct rectRes
    as [err0 | [[[topLeftLon topLeftLat] bottomRightLon] bottomRightLat]]
    eqn:Hrect.
  { repeat split; try discriminate.
    - intros err [= <-]. exact Hout.
    - intros err Herr. rewrite Hout in Herr. injection Herr as <-. auto. }
  assert (Hbox : boxRun (topLeftLon, topLeftLat, bottomRightLon,
                         bottomRightLat)
                 = boxSearcher indexReader
                     topLeftLon topLeftLat bottomRightLon bottomRightLat
                     field boost scorer compScorer options false
                     precisionStep (w, tr0)) by reflexivity.
  rewrite <- Hbox in Hout. clearbody boxRun. clear Hbox.
  destruct (boxRun (topLeftLon, topLeftLat, bottomRightLon, bottomRightLat))
    as [[err0 | box0] [w1' tr1']] eqn:Hrun.
  { repeat split; try discriminate.
    - intros rect err s1 [= <-]. rewrite Hrun. intros [= <- <-]. exact Hout.
    - intros rect box w1 tr1 err w2 [= <-]. rewrite Hrun. discriminate.
    - intros rect box w1 tr1 dvReader w2 [= <-]. rewrite Hrun. discriminate.
    - intros err Herr. rewrite Hout in Herr. injection Herr as <-.
      right; left. eauto. }
  fold evReader in Hout.
  destruct (ext_DocumentValueReader indexReader [field] w1')
    as [[err0 | dvReader0] w2'] eqn:Hdv.
  - repeat split; try discriminate.
    + intros rect err s1 [= <-]. rewrite Hrun. discriminate.
    + intros rect box w1 tr1 err w2 [= <-]. rewrite Hrun.
      intros [= <- <- <-]. rewrite Hdv. intros [= <- <-]. exact Hout.
    + intros rect box w1 tr1 dvReader w2 [= <-]. rewrite Hrun.
      intros [= <- <- <-]. rewrite Hdv. discriminate.
    + intros err Herr. rewrite Hout in Herr. injection Herr as <-.
      right; right. do 5 eexists. eauto.
  - repeat split; try discriminate.
    + intros rect err s1 [= <-]. rewrite Hrun. discriminate.
    + intros rect box w1 tr1 err w2 [= <-]. rewrite Hrun.
      intros [= <- <- <-]. rewrite Hdv. discriminate.
    + intros rect box w1 tr1 dvReader w2 [= <-]. rewrite Hrun.
      intros [= <- <- <-]. rewrite Hdv. intros [= <- <-]. exact Hout.
    + intros err Herr. rewrite Hout in Herr. discriminate.
Qed.

(** Called with [checkBoundaries = false], [boxSearcher] asks for at least
    one bounding box, and for none with boundary checking. *)
Lemma boxSearcher_unchecked_box
    (indexReader : Reader)
    (topLeftLon topLeftLat bottomRightLon bottomRightLat : float)
    (field : string) (boost : float) (scorer : Scorer)
    (compScorer : CompositeScorer) (options : SearcherOptions)
    (precisionStep : N) (w : World) (tr : list Event) :
  exists evs : list Event,
    snd (snd (boxSearcher indexReader
                topLeftLon topLeftLat bottomRightLon bottomRightLat
                field boost scorer compScorer options false precisionStep
                (w, tr)))
    = tr ++ evs
    /\ existsb isUncheckedBox evs = true
    /\ forallb noBoundaryCheck evs = true.
Proof.
  unfold boxSearcher. destruct (bottomRightLon <? topLeftLon); run;
    repeat (crack; run); rewrite <- ?app_assoc; cbn [app];
    eexists; (split; [reflexivity | split; reflexivity]).
Qed.

(** C9: [NewGeoPointDistanceSearcher] calls [boxSearcher] with
    [checkBoundaries = false].  On every input on which the rectangle is
    computed, the step after it is the run of [boxSearcher] on that rectangle
    with the caller's arguments and [checkBoundaries = false]: the trace is
    the trace of that run, which asks for at least one bounding box and for
    none with boundary checking, followed by nothing or by the acquisition of
    the value reader; an error of that run is returned as it is; and a
    searcher returned is the searcher of that run wrapped by the filtering
    searcher with the distance filter of the query center and distance.
    When the rectangle is not computed no box is asked for at all.  So on
    every input no bounding-box construction has [checkBoundaries = true]. *)
Theorem NewGeoPointDistanceSearcher_no_boundary_check
    (indexReader : Reader) (centerLon centerLat dist : float)
    (field : string) (boost : float) (scorer : Scorer)
    (compScorer : CompositeScorer) (options : SearcherOptions)
    (precisionStep : N) (w : World) (tr : list Event) :
  let out :=
    NewGeoPointDistanceSearcher indexReader centerLon centerLat dist
      field boost scorer compScorer options precisionStep (w, tr) in
  let tr0 := tr ++ [EvRectFromPointDistance centerLon centerLat dist] in
  (exists evs : list Event,
      snd (snd out) = tr ++ evs /\ forallb noBoundaryCheck evs = true)
  /\
  (forall s : Searcher,
      fst out = inr s ->
      exists (box : Searcher) (dvReader : DocumentValueReader),
        s = NewFilteringSearcher box
              (buildDistFilter dvReader centerLon centerLat dist))
  /\
  (forall topLeftLon topLeftLat bottomRightLon bottomRightLat : float,
      ext_RectFromPointDistance centerLon centerLat dist
      = inr (topLeftLon, topLeftLat, bottomRightLon, bottomRightLat) ->
      let boxOut :=
        boxSearcher indexReader
          topLeftLon topLeftLat bottomRightLon bottomRightLat
          field boost scorer compScorer options false precisionStep
          (w, tr0) in
      (exists rest : list Event,
          snd (snd out) = snd (snd boxOut) ++ rest /\
          (rest = [] \/ rest = [EvDocumentValueReader indexReader [field]]))
      /\
      (exists evs : list Event,
          snd (snd boxOut) = tr0 ++ evs /\
          existsb isUncheckedBox evs = true /\
          forallb noBoundaryCheck evs = true)
      /\
      (forall err : error, fst boxOut = inl err -> out = (inl err, snd boxOut))
      /\
      (forall s : Searcher,
          fst out = inr s ->
          exists (box : Searcher) (dvReader : DocumentValueReader),
            fst boxOut = inr box /\
            s = NewFilteringSearcher box
                  (buildDistFilter dvReader centerLon centerLat dist)))
  /\
  (forall err : error,
      ext_RectFromPointDistance centerLon centerLat dist = inl err ->
      snd (snd out) = tr0).
Proof.
  intros out tr0.
  pose proof (NewGeoPointDistanceSearcher_steps indexReader centerLon
                centerLat dist field boost scorer compScorer options
                precisionStep w tr) as Hout.
  cbv zeta in Hout. fold out tr0 in Hout.
  destruct (ext_RectFromPointDistance centerLon centerLat dist)
    as [err | [[[topLeftLon topLeftLat] bottomRightLon] bottomRightLat]].
  { rewrite Hout; cbn [fst snd]. repeat split; try discriminate.
    exists [EvRectFromPointDistance centerLon centerLat dist].
    split; reflexivity. }
  destruct (boxSearcher_unchecked_box indexReader topLeftLon topLeftLat
              bottomRightLon bottomRightLat field boost scorer compScorer
              options precisionStep w tr0)
    as (evs & Htr & Hbox & Hevs).
  destruct (boxSearcher indexReader topLeftLon topLeftLat bottomRightLon
              bottomRightLat field boost scorer compScorer options false
              precisionStep (w, tr0)) as [[err | box] [w1 tr1]] eqn:Hrun;
    cbn [fst snd] in Htr; subst tr1.
  - rewrite Hout; cbn [fst snd].
    split; [|split; [discriminate|split; [|discriminate]]].
    + exists (EvRectFromPointDistance centerLon centerLat dist :: evs).
      unfold tr0. rewrite <- app_assoc. split; [reflexivity | exact Hevs].
    + intros tl tlat br brlat [= <- <- <- <-]. cbv zeta. rewrite Hrun.
      cbn [fst snd]. repeat split; try discriminate.
      * exists []. rewrite app_nil_r. auto.
      * exists evs. auto.
      * intros err' [= <-]. reflexivity.
  - assert (Hall : forallb noBoundaryCheck
                     (EvRectFromPointDistance centerLon centerLat dist
                        :: evs ++ [EvDocumentValueReader indexReader [field]])
                   = true).
    { cbn [forallb noBoundaryCheck andb]. rewrite forallb_app, Hevs.
      reflexivity. }
    assert (Htrace : (tr0 ++ evs) ++ [EvDocumentValueReader indexReader [field]]
                     = tr ++ EvRectFromPointDistance centerLon centerLat dist
                          :: evs ++ [EvDocumentValueReader indexReader [field]]).
    { unfold tr0. rewrite <- !app_assoc. reflexivity. }
    destruct (ext_DocumentValueReader indexReader [field] w1)
      as [[err | dvReader] w2]; rewrite Hout; cbn [fst snd].
    + split; [|split; [discriminate|split; [|discriminate]]].
      * eexists; split; [exact Htrace | exact Hall].
      * intros tl tlat br brlat [= <- <- <- <-]. cbv zeta. rewrite Hrun.
        cbn [fst snd]. repeat split; try discriminate.
        -- eexists; split; [reflexivity|]. right; reflexivity.
        -- exists evs. auto.
    + split; [|split; [|split; [|discriminate]]].
      * eexists; split; [exact Htrace | exact Hall].
      * intros s [= <-]. eauto.
      * intros tl tlat br brlat [= <- <- <- <-]. cbv zeta. rewrite Hrun.
        cbn [fst snd]. repeat split; try discriminate.
        -- eexists; split; [reflexivity|]. right; reflexivity.
        -- exists evs. auto.
        -- intros s [= <-]. eauto.
Qed.

(** ** Further properties of the construction *)

(** X1: in the dateline-split path, when the left construction fails,
    [boxSearcher] returns that error having made that one call: the right
    box is not asked for, nothing is closed. *)
Theorem boxSearcher_left_failure
    (indexReader : Reader)
    (topLeftLon topLeftLat bottomRightLon bottomRightLat : float)
    (field : string) (boost : float) (scorer : Scorer)
    (compScorer : CompositeScorer) (options : SearcherOptions)
    (checkBoundaries : bool) (precisionStep : N)
    (w w1 : World) (tr : list Event) (err : error) :
  (bottomRightLon <? topLeftLon) = true ->
  ext_NewGeoBoundingBoxSearcher indexReader
    (-180) bottomRightLat bottomRightLon topLeftLat
    field boost scorer compScorer options checkBoundaries precisionStep w
  = (inl err, w1) ->
  boxSearcher indexReader topLeftLon topLeftLat bottomRightLon bottomRightLat
    field boost scorer compScorer options checkBoundaries precisionStep
    (w, tr)
  = (inl err,
     (w1,
      tr ++ [EvGeoBoundingBox indexReader
               (-180) bottomRightLat bottomRightLon topLeftLat
               field boost scorer compScorer options
               checkBoundaries precisionStep])).
Proof.
  intros Hcross Hleft. unfold boxSearcher. rewrite Hcross. run.
  rewrite Hleft; cbn [fst snd]. run. reflexivity.
Qed.

(** X2: [boxSearcher] returns an error exactly when one of the constructors
    it calls fails, and the error is that constructor's: without crossing,
    the single box; with crossing, the left box, else the right box, else
    the disjunction of the two. *)
Theorem boxSearcher_error_origin
    (indexReader : Reader)
    (topLeftLon topLeftLat bottomRightLon bottomRightLat : float)
    (field : string) (boost : float) (scorer : Scorer)
    (compScorer : CompositeScorer) (options : SearcherOptions)
    (checkBoundaries : bool) (precisionStep : N)
    (w : World) (tr : list Event) (err : error) :
  let box := fun minLon maxLon =>
    ext_NewGeoBoundingBoxSearcher indexReader
      minLon bottomRightLat maxLon topLeftLat
      field boost scorer compScorer options checkBoundaries precisionStep in
  fst (boxSearcher indexReader
         topLeftLon topLeftLat bottomRightLon bottomRightLat
         field boost scorer compScorer options checkBoundaries precisionStep
         (w, tr))
  = inl err
  <->
  ((bottomRightLon <? topLeftLon) = false /\
   fst (box topLeftLon bottomRightLon w) = inl err)
  \/
  ((bottomRightLon <? topLeftLon) = true /\
   (fst (box (-180) bottomRightLon w) = inl err
    \/ exists leftSearcher w1,
         box (-180) bottomRightLon w = (inr leftSearcher, w1) /\
         (fst (box topLeftLon 180 w1) = inl err
          \/ exists rightSearcher w2,
               box topLeftLon 180 w1 = (inr rightSearcher, w2) /\
               fst (ext_NewDisjunctionSearcher indexReader
                      [leftSearcher; rightSearcher] 0
                      NewCompositeSumScorer options w2)
               = inl err))).
Proof.
  intros box. subst box. unfold boxSearcher.
  destruct (bottomRightLon <? topLeftLon) eqn:Hcross; run.
  - destruct (ext_NewGeoBoundingBoxSearcher indexReader (-180) _ _ _ _ _ _ _
                _ _ _ w) as [[e1 | l] w1] eqn:Hl; cbn [fst snd]; run.
    { split.
      - intros [= <-]. right. split; [reflexivity|]. left. reflexivity.
      - intros [[Hf _] | [_ [He | (l & w1' & Habs & _)]]];
          [discriminate | exact He | discriminate]. }
    destruct (ext_NewGeoBoundingBoxSearcher indexReader topLeftLon _ _ _ _ _
                _ _ _ _ _ w1) as [[e2 | r] w2] eqn:Hr; cbn [fst snd]; run.
    { split.
      - intros [= <-]. right. split; [reflexivity|]. right.
        exists l, w1. split; [reflexivity|]. left. rewrite Hr. reflexivity.
      - intros [[Hf _] | [_ [He | (l' & w1' & [= <- <-] & Hrest)]]];
          [discriminate | discriminate |].
        rewrite Hr in Hrest.
        destruct Hrest as [He | (r' & w2' & Habs & _)];
          [exact He | discriminate]. }
    destruct (ext_NewDisjunctionSearcher indexReader [l; r] 0
                NewCompositeSumScorer options w2) as [[e3 | dj] w3] eqn:Hd;
      cbn [fst snd]; run.
    + split.
      * intros [= <-]. right. split; [reflexivity|]. right.
        exists l, w1. split; [reflexivity|]. right. rewrite Hr.
        exists r, w2. split; [reflexivity|]. rewrite Hd. reflexivity.
      * intros [[Hf _] | [_ [He | (l' & w1' & [= <- <-] & Hrest)]]];
          [discriminate | discriminate |].
        rewrite Hr in Hrest.
        destruct Hrest as [He | (r' & w2' & [= <- <-] & He)];
          [discriminate |]. rewrite Hd in He. exact He.
    + split; [discriminate|].
      intros [[Hf _] | [_ [He | (l' & w1' & [= <- <-] & Hrest)]]];
        [discriminate | discriminate |].
      rewrite Hr in Hrest.
      destruct Hrest as [He | (r' & w2' & [= <- <-] & He)];
        [discriminate |]. rewrite Hd in He. discriminate.
  - destruct (ext_NewGeoBoundingBoxSearcher indexReader topLeftLon _ _ _ _ _
                _ _ _ _ _ w) as [[e1 | b] w1] eqn:Hb; cbn [fst snd].
    + split.
      * intros [= <-]. left. split; reflexivity.
      * intros [[_ He] | [Hf _]]; [exact He | discriminate].
    + split; [discriminate|].
      intros [[_ He] | [Hf _]]; discriminate.
Qed.

(** X3: whatever the collaborators answer, [boxSearcher] keeps the trace it
    was given and only appends bounding-box constructions, disjunctions and
    closes to it; each bounding-box construction lies between
    [bottomRightLat] and [topLeftLat] and carries the caller's reader, field,
    boost, scorers, options, [checkBoundaries] and [precisionStep]
    unchanged; a disjunction has two members, minimum 0 and the sum composite
    scorer rather than the caller's composite scorer. *)
Theorem boxSearcher_forwards_arguments
    (indexReader : Reader)
    (topLeftLon topLeftLat bottomRightLon bottomRightLat : float)
    (field : string) (boost : float) (scorer : Scorer)
    (compScorer : CompositeScorer) (options : SearcherOptions)
    (checkBoundaries : bool) (precisionStep : N)
    (w : World) (tr : list Event) :
  exists evs : list Event,
    snd (snd (boxSearcher indexReader
                topLeftLon topLeftLat bottomRightLon bottomRightLat
                field boost scorer compScorer options
                checkBoundaries precisionStep (w, tr)))
    = tr ++ evs
    /\ Forall (forwards indexReader topLeftLat bottomRightLat field boost
                 scorer compScorer options checkBoundaries precisionStep)
         evs
    /\ (1 <= List.length evs <= 5)%nat.
Proof.
  unfold boxSearcher. destruct (bottomRightLon <? topLeftLon); run;
    repeat (crack; run); rewrite <- ?app_assoc; cbn [app];
    eexists; (split; [reflexivity|]);
    (split; [repeat constructor | cbn [List.length]; lia]).
Qed.

(** X6: a NaN longitude never takes the dateline-split path.  When
    [topLeftLon] or [bottomRightLon] is NaN the comparison is false and
    [boxSearcher] asks for the single box over the rectangle as given,
    returning what that call returns. *)
Theorem boxSearcher_nan_longitude_single_box
    (indexReader : Reader)
    (topLeftLon topLeftLat bottomRightLon bottomRightLat : float)
    (field : string) (boost : float) (scorer : Scorer)
    (compScorer : CompositeScorer) (options : SearcherOptions)
    (checkBoundaries : bool) (precisionStep : N)
    (w : World) (tr : list Event) :
  is_nan topLeftLon = true \/ is_nan bottomRightLon = true ->
  let built :=
    ext_NewGeoBoundingBoxSearcher indexReader
      topLeftLon bottomRightLat bottomRightLon topLeftLat
      field boost scorer compScorer options checkBoundaries precisionStep w in
  boxSearcher indexReader topLeftLon topLeftLat bottomRightLon bottomRightLat
    field boost scorer compScorer options checkBoundaries precisionStep
    (w, tr)
  = (fst built,
     (snd built,
      tr ++ [EvGeoBoundingBox indexReader
               topLeftLon bottomRightLat bottomRightLon topLeftLat
               field boost scorer compScorer options
               checkBoundaries precisionStep])).
Proof.
  intros Hnan built. subst built. unfold boxSearcher.
  rewrite (ltb_nan bottomRightLon topLeftLon) by tauto. run.
  destruct (ext_NewGeoBoundingBoxSearcher _ _ _ _ _ _ _ _ _ _ _ _ w)
    as [[err | box] w']; reflexivity.
Qed.

(** When [boxSearcher] returns a searcher it has closed nothing. *)
Lemma boxSearcher_success_closes_nothing
    (indexReader : Reader)
    (topLeftLon topLeftLat bottomRightLon bottomRightLat : float)
    (field : string) (boost : float) (scorer : Scorer)
    (compScorer : CompositeScorer) (options : SearcherOptions)
    (checkBoundaries : bool) (precisionStep : N)
    (w : World) (tr : list Event) :
  let out :=
    boxSearcher indexReader
      topLeftLon topLeftLat bottomRightLon bottomRightLat
      field boost scorer compScorer options checkBoundaries precisionStep
      (w, tr) in
  exists evs : list Event,
    snd (snd out) = tr ++ evs
    /\ (forall s, fst out = inr s -> filter isClose evs = []).
Proof.
  unfold boxSearcher. destruct (bottomRightLon <? topLeftLon); run;
    repeat (crack; run); rewrite <- ?app_assoc; cbn [app];
    eexists; (split; [reflexivity|]); intros s' Hs;
    first [discriminate Hs | reflexivity].
Qed.

(** X4: when [NewGeoPointDistanceSearcher] returns a searcher, no [Close]
    is among the calls it made: the searchers built on the way are all
    still open. *)
Theorem NewGeoPointDistanceSearcher_success_closes_nothing
    (indexReader : Reader) (centerLon centerLat dist : float)
    (field : string) (boost : float) (scorer : Scorer)
    (compScorer : CompositeScorer) (options : SearcherOptions)
    (precisionStep : N) (w : World) (tr : list Event) (s : Searcher) :
  let out :=
    NewGeoPointDistanceSearcher indexReader centerLon centerLat dist
      field boost scorer compScorer options precisionStep (w, tr) in
  fst out = inr s ->
  exists evs : list Event,
    snd (snd out) = tr ++ evs /\ filter isClose evs = [].
Proof.
  intros out Hs.
  pose proof (NewGeoPointDistanceSearcher_steps indexReader centerLon
                centerLat dist field boost scorer compScorer options
                precisionStep w tr) as Hout.
  cbv zeta in Hout. fold out in Hout.
  destruct (ext_RectFromPointDistance centerLon centerLat dist)
    as [err | [[[topLeftLon topLeftLat] bottomRightLon] bottomRightLat]].
  { rewrite Hout in Hs. discriminate Hs. }
  destruct (boxSearcher_success_closes_nothing indexReader topLeftLon
              topLeftLat bottomRightLon bottomRightLat field boost scorer
              compScorer options false precisionStep w
              (tr ++ [EvRectFromPointDistance centerLon centerLat dist]))
    as (evs & Htr & Hclose).
  cbv zeta in Hclose.
  destruct (boxSearcher _ _ _ _ _ _ _ _ _ _ _ _ _) as [[err | box] [w1 tr1]];
    cbn [fst snd] in Htr, Hclose; subst tr1.
  { rewrite Hout in Hs. discriminate Hs. }
  specialize (Hclose box eq_refl).
  destruct (ext_DocumentValueReader indexReader [field] w1)
    as [[err | dvReader] w2]; rewrite Hout in *; cbn [fst snd] in *;
    [discriminate Hs|].
  exists (EvRectFromPointDistance centerLon centerLat dist
            :: evs ++ [EvDocumentValueReader indexReader [field]]).
  split.
  - rewrite <- !app_assoc. reflexivity.
  - cbn [filter isClose]. rewrite filter_app, Hclose. reflexivity.
Qed.

(** X5: end to end across the antimeridian.  When the rectangle of the
    circle has [bottomRightLon < topLeftLon] and every collaborator succeeds,
    [NewGeoPointDistanceSearcher] makes five calls (the rectangle, the left
    box, the right box, both without boundary checking, their disjunction,
    the value reader of the field) and returns the disjunction wrapped with
    the distance filter. *)
Theorem NewGeoPointDistanceSearcher_across_dateline
    (indexReader : Reader) (centerLon centerLat dist : float)
    (field : string) (boost : float) (scorer : Scorer)
    (compScorer : CompositeScorer) (options : SearcherOptions)
    (precisionStep : N) (w w1 w2 w3 w4 : World) (tr : list Event)
    (topLeftLon topLeftLat bottomRightLon bottomRightLat : float)
    (leftSearcher rightSearcher disjunction : Searcher)
    (dvReader : DocumentValueReader) :
  ext_RectFromPointDistance centerLon centerLat dist
  = inr (topLeftLon, topLeftLat, bottomRightLon, bottomRightLat) ->
  (bottomRightLon <? topLeftLon) = true ->
  ext_NewGeoBoundingBoxSearcher indexReader
    (-180) bottomRightLat bottomRightLon topLeftLat
    field boost scorer compScorer options false precisionStep w
  = (inr leftSearcher, w1) ->
  ext_NewGeoBoundingBoxSearcher indexReader
    topLeftLon bottomRightLat 180 topLeftLat
    field boost scorer compScorer options false precisionStep w1
  = (inr rightSearcher, w2) ->
  ext_NewDisjunctionSearcher indexReader [leftSearcher; rightSearcher] 0
    NewCompositeSumScorer options w2
  = (inr disjunction, w3) ->
  ext_DocumentValueReader indexReader [field] w3 = (inr dvReader, w4) ->
  NewGeoPointDistanceSearcher indexReader centerLon centerLat dist
    field boost scorer compScorer options precisionStep (w, tr)
  = (inr (NewFilteringSearcher disjunction
            (buildDistFilter dvReader centerLon centerLat dist)),
     (w4,
      tr ++ [EvRectFromPointDistance centerLon centerLat dist;
             EvGeoBoundingBox indexReader
               (-180) bottomRightLat bottomRightLon topLeftLat
               field boost scorer compScorer options false precisionStep;
             EvGeoBoundingBox indexReader
               topLeftLon bottomRightLat 180 topLeftLat
               field boost scorer compScorer options false precisionStep;
             EvDisjunction indexReader [leftSearcher; rightSearcher] 0
               NewCompositeSumScorer options;
             EvDocumentValueReader indexReader [field]])).
Proof.
  intros Hrect Hcross Hleft Hright Hdisj Hdv.
  unfold NewGeoPointDistanceSearcher. run. rewrite Hrect.
  unfold boxSearcher. rewrite Hcross. run.
  rewrite Hleft; cbn [fst snd]. run. rewrite Hright; cbn [fst snd]. run.
  rewrite Hdisj; cbn [fst snd]. run. rewrite Hdv; cbn [fst snd]. run.
  tidy.
Qed.

End ConstructionProperties.

Section FilterProperties.
Context `{C : Collaborators}.

Lemma visitor_decoded (v : Visited) (field : string) (term : Term) :
  visitor v field term =
  match decodedCode term with
  | Some u => {| lons := lons v ++ [MortonUnhashLon u];
                 lats := lats v ++ [MortonUnhashLat u];
                 found := true |}
  | None => v
  end.
Proof.
  unfold visitor, decodedCode.
  destruct (Shift term) as [e | [| p]]; try reflexivity.
  cbn [N.eqb]. destruct (Int64 term); reflexivity.
Qed.

Lemma visitAll_codes (terms : list (string * Term)) (v : Visited) :
  visitAll terms v =
  {| lons := lons v ++ map MortonUnhashLon (codes terms);
     lats := lats v ++ map MortonUnhashLat (codes terms);
     found := found v || negb (Nat.eqb (List.length (codes terms)) 0) |}.
Proof.
  revert v. induction terms as [| [field term] terms IH]; intros v.
  - destruct v; cbn. rewrite !app_nil_r, orb_false_r. reflexivity.
  - unfold visitAll in *. cbn [fold_left fst snd]. rewrite IH.
    rewrite visitor_decoded. unfold codes; cbn [flat_map snd].
    destruct (decodedCode term) as [u |]; cbn [lons lats found app map].
    + rewrite <- !app_assoc. cbn [app List.length Nat.eqb negb].
      rewrite orb_true_r. reflexivity.
    + reflexivity.
Qed.

(** The two slices the loop indexes have the same length: [lats[i]] is in
    range whenever [lons[i]] is. *)
Lemma visitAll_lengths (terms : list (string * Term)) :
  List.length (lats (visitAll terms noneVisited))
  = List.length (lons (visitAll terms noneVisited)).
Proof.
  rewrite visitAll_codes. cbn [lons lats noneVisited app].
  rewrite !length_map. reflexivity.
Qed.

Lemma loop_from (h : float -> float -> bool) (cs : list Z) :
  forall pl pb : list float,
    List.length pl = List.length pb ->
    existsb (fun i => h (nth i (pl ++ map MortonUnhashLon cs) 0)
                        (nth i (pb ++ map MortonUnhashLat cs) 0))
            (seq (List.length pl) (List.length cs))
    = existsb (fun u => h (MortonUnhashLon u) (MortonUnhashLat u)) cs.
Proof.
  induction cs as [| u cs IH]; intros pl pb Hlen; [reflexivity|].
  cbn [List.length seq existsb map].
  rewrite nth_middle. rewrite Hlen at 1. rewrite nth_middle. f_equal.
  specialize (IH (pl ++ [MortonUnhashLon u]) (pb ++ [MortonUnhashLat u])).
  rewrite !length_app in IH. cbn [List.length] in IH.
  rewrite !Nat.add_1_r in IH. rewrite <- !app_assoc in IH. cbn [app] in IH.
  apply IH. congruence.
Qed.

(** The filter on a document, by the outcome of its visitation. *)
Lemma buildDistFilter_codes (dvReader : DocumentValueReader)
    (centerLon centerLat maxDist : float) (d : DocumentMatch) :
  buildDistFilter dvReader centerLon centerLat maxDist d =
  match snd (VisitDocumentValues dvReader (Number d)) with
  | None => existsb (within centerLon centerLat maxDist)
              (codes (fst (VisitDocumentValues dvReader (Number d))))
  | Some _ => false
  end.
Proof.
  unfold buildDistFilter.
  destruct (VisitDocumentValues dvReader (Number d)) as [terms [err |]];
    cbn [fst snd]; [reflexivity|].
  rewrite visitAll_codes. cbn [lons lats found noneVisited app orb].
  unfold withinLoop. cbn [lons lats]. rewrite length_map.
  pose proof (loop_from
                (fun lon lat =>
                   Haversin lon lat centerLon centerLat <=? maxDist / 1000)
                (codes terms) [] [] eq_refl) as Hloop.
  cbn [app List.length] in Hloop. rewrite Hloop.
  destruct (codes terms); reflexivity.
Qed.

Lemma decodedCode_Some (term : Term) (u : Z) :
  decodedCode term = Some u <->
  exists i64 : Z,
    Shift term = inr 0%N /\ Int64 term = inr i64 /\ u = uint64 i64.
Proof.
  unfold decodedCode. split.
  - destruct (Shift term) as [e | [| p]]; try discriminate.
    destruct (Int64 term) as [e | i64]; try discriminate.
    intros [= <-]. eauto.
  - intros (i64 & -> & -> & ->). reflexivity.
Qed.

Lemma visitor_coarse (v : Visited) (field : string) (term : Term) :
  coarse term = true -> visitor v field term = v.
Proof.
  unfold coarse, visitor. destruct (Shift term) as [e | [| p]];
    try discriminate; reflexivity.
Qed.

Lemma visitAll_dropCoarse (terms : list (string * Term)) (v : Visited) :
  visitAll (dropCoarse terms) v = visitAll terms v.
Proof.
  revert v. induction terms as [| [field term] terms IH]; intros v;
    [reflexivity|].
  unfold visitAll, dropCoarse in *. cbn [filter fold_left fst snd].
  destruct (coarse term) eqn:Hc; cbn [negb fold_left fst snd].
  - rewrite (visitor_coarse v field term Hc). apply IH.
  - apply IH.
Qed.

Lemma buildDistFilter_visited (dvReader : DocumentValueReader)
    (centerLon centerLat maxDist : float) (d : DocumentMatch) :
  buildDistFilter dvReader centerLon centerLat maxDist d =
  let v := visitAll (fst (VisitDocumentValues dvReader (Number d)))
             noneVisited in
  match snd (VisitDocumentValues dvReader (Number d)) with
  | None =>
    if found v then withinLoop v centerLon centerLat maxDist else false
  | Some _ => false
  end.
Proof.
  unfold buildDistFilter.
  destruct (VisitDocumentValues dvReader (Number d)); reflexivity.
Qed.

(** C2: on a document whose visitation returns no error, the distance filter
    returns true exactly when some visited term has shift 0, decodes to a
    64-bit integer, and the point of that integer is at haversine distance at
    most [maxDist / 1000] from the query center.  So it returns false when no
    such point was decoded and when every decoded point fails the test. *)
Theorem buildDistFilter_existential
    (dvReader : DocumentValueReader) (centerLon centerLat maxDist : float)
    (d : DocumentMatch) (terms : list (string * Term)) :
  VisitDocumentValues dvReader (Number d) = (terms, None) ->
  (buildDistFilter dvReader centerLon centerLat maxDist d = true <->
   exists (field : string) (term : Term) (i64 : Z),
     In (field, term) terms /\
     Shift term = inr 0%N /\
     Int64 term = inr i64 /\
     (Haversin (MortonUnhashLon (uint64 i64)) (MortonUnhashLat (uint64 i64))
        centerLon centerLat
      <=? maxDist / 1000) = true).
Proof.
  intros Hvisit. rewrite buildDistFilter_codes, Hvisit. cbn [fst snd].
  rewrite existsb_exists. unfold codes. split.
  - intros (u & Hin & Hu). apply in_flat_map in Hin.
    destruct Hin as ([field term] & Hterm & Hcode). cbn [snd] in Hcode.
    destruct (decodedCode term) as [u' |] eqn:Hdec; [|contradiction].
    destruct Hcode as [-> | []].
    apply decodedCode_Some in Hdec. destruct Hdec as (i64 & Hs & Hi & ->).
    exists field, term, i64. auto.
  - intros (field & term & i64 & Hin & Hs & Hi & Hd).
    exists (uint64 i64). split; [|exact Hd].
    apply in_flat_map. exists (field, term). split; [exact Hin|].
    cbn [snd]. assert (Hdec : decodedCode term = Some (uint64 i64)).
    { apply decodedCode_Some. eauto. }
    rewrite Hdec. left. reflexivity.
Qed.

(** C3: terms whose shift is greater than 0 add nothing to the decoded
    coordinates and do not influence the filter.  For two documents whose
    visited sequences are equal once the terms with shift greater than 0 are
    dropped, and whose visitations both fail or both succeed, the visitor
    collects the same longitudes and latitudes and the filter returns the
    same result. *)
Theorem buildDistFilter_ignores_coarse_terms
    (dvReader : DocumentValueReader) (centerLon centerLat maxDist : float)
    (d1 d2 : DocumentMatch) (terms1 terms2 : list (string * Term))
    (err1 err2 : option error) :
  VisitDocumentValues dvReader (Number d1) = (terms1, err1) ->
  VisitDocumentValues dvReader (Number d2) = (terms2, err2) ->
  dropCoarse terms1 = dropCoarse terms2 ->
  (err1 = None <-> err2 = None) ->
  visitAll terms1 noneVisited = visitAll terms2 noneVisited /\
  buildDistFilter dvReader centerLon centerLat maxDist d1
  = buildDistFilter dvReader centerLon centerLat maxDist d2.
Proof.
  intros Hv1 Hv2 Hdrop Herr.
  assert (Hsame : visitAll terms1 noneVisited = visitAll terms2 noneVisited).
  { rewrite <- (visitAll_dropCoarse terms1), <- (visitAll_dropCoarse terms2).
    rewrite Hdrop. reflexivity. }
  split; [exact Hsame|].
  rewrite !buildDistFilter_visited, Hv1, Hv2. cbn [fst snd]. cbv zeta.
  rewrite Hsame.
  destruct err1 as [e1 |], err2 as [e2 |]; try reflexivity.
  - destruct Herr as [_ Habs]. discriminate (Habs eq_refl).
  - destruct Herr as [Habs _]. discriminate (Habs eq_refl).
Qed.

(** C4: when the visitation of a document returns an error the filter
    returns false, whatever terms were visited before the error; the filter
    has no other result than its boolean. *)
Theorem buildDistFilter_rejects_on_visit_error
    (dvReader : DocumentValueReader) (centerLon centerLat maxDist : float)
    (d : DocumentMatch) (terms : list (string * Term)) (err : error) :
  VisitDocumentValues dvReader (Number d) = (terms, Some err) ->
  buildDistFilter dvReader centerLon centerLat maxDist d = false.
Proof.
  intros Hvisit. unfold buildDistFilter. rewrite Hvisit. reflexivity.
Qed.

(** C10: a visited term whose shift fails to decode, or whose shift is 0 and
    whose 64-bit integer fails to decode, leaves the visitor's variables as
    they were; the filter returns on the document what it returns on a
    document with the same visitation without that term. *)
Theorem buildDistFilter_skips_undecodable_term
    (dvReader : DocumentValueReader) (centerLon centerLat maxDist : float)
    (d d' : DocumentMatch) (before after : list (string * Term))
    (field : string) (term : Term) (err : option error) :
  VisitDocumentValues dvReader (Number d)
  = (before ++ (field, term) :: after, err) ->
  VisitDocumentValues dvReader (Number d') = (before ++ after, err) ->
  ((exists e : error, Shift term = inl e) \/
   (Shift term = inr 0%N /\ exists e : error, Int64 term = inl e)) ->
  (forall v : Visited, visitor v field term = v) /\
  visitAll (before ++ (field, term) :: after) noneVisited
  = visitAll (before ++ after) noneVisited /\
  buildDistFilter dvReader centerLon centerLat maxDist d
  = buildDistFilter dvReader centerLon centerLat maxDist d'.
Proof.
  intros Hv Hv' Hbad.
  assert (Hskip : forall v : Visited, visitor v field term = v).
  { intros v. unfold visitor.
    destruct Hbad as [[e ->] | [-> [e ->]]]; reflexivity. }
  assert (Hsame : visitAll (before ++ (field, term) :: after) noneVisited
                  = visitAll (before ++ after) noneVisited).
  { unfold visitAll. rewrite !fold_left_app. cbn [fold_left fst snd].
    rewrite Hskip. reflexivity. }
  repeat split; [exact Hskip | exact Hsame |].
  rewrite !buildDistFilter_visited, Hv, Hv'. cbn [fst snd]. cbv zeta.
  rewrite Hsame. reflexivity.
Qed.

(** ** Further properties of the filter *)

Lemma existsb_Permutation {A} (f : A -> bool) (l l' : list A) :
  Permutation l l' -> existsb f l = existsb f l'.
Proof.
  induction 1 as [| x l l' _ IH | x y l | l l' l'' _ IH1 _ IH2];
    cbn [existsb].
  - reflexivity.
  - rewrite IH. reflexivity.
  - destruct (f x), (f y); reflexivity.
  - congruence.
Qed.

Lemma visitAll_fields (terms1 : list (string * Term)) :
  forall (terms2 : list (string * Term)) (v : Visited),
    map snd terms1 = map snd terms2 ->
    visitAll terms1 v = visitAll terms2 v.
Proof.
  induction terms1 as [| [f1 t1] terms1 IH];
    intros [| [f2 t2] terms2] v Hmap; try discriminate; [reflexivity|].
  cbn [map snd] in Hmap. injection Hmap as -> Hmap.
  unfold visitAll in *. cbn [fold_left fst snd].
  change (visitor v f1 t2) with (visitor v f2 t2). apply IH. exact Hmap.
Qed.

(** X7: the visitor keeps longitudes and latitudes in step.  After any
    visitation, [lons] and [lats] are the longitudes and the latitudes of one
    and the same list of codes, each code within the range of a [uint64], so
    the two slices have the same length and [lats[i]] is in range wherever
    [lons[i]] is; and [found] is set exactly when the slices are not
    empty. *)
Theorem visitAll_paired (terms : list (string * Term)) :
  let v := visitAll terms noneVisited in
  exists cs : list Z,
    lons v = map MortonUnhashLon cs /\
    lats v = map MortonUnhashLat cs /\
    Forall (fun u => 0 <= u < 2 ^ 64)%Z cs /\
    List.length (lats v) = List.length (lons v) /\
    (found v = true <-> lons v <> []).
Proof.
  intros v. subst v. rewrite visitAll_codes.
  cbn [lons lats found noneVisited app orb].
  exists (codes terms). repeat split.
  - unfold codes. apply Forall_forall. intros u Hin.
    apply in_flat_map in Hin. destruct Hin as ([field term] & _ & Hu).
    cbn [snd] in Hu. destruct (decodedCode term) as [u' |] eqn:Hdec;
      [|contradiction].
    destruct Hu as [-> | []]. apply decodedCode_Some in Hdec.
    destruct Hdec as (i64 & _ & _ & ->). unfold uint64.
    apply Z.mod_pos_bound. lia.
  - rewrite !length_map. reflexivity.
  - destruct (codes terms); cbn; [discriminate | intros _; discriminate].
  - destruct (codes terms); cbn; [congruence | reflexivity].
Qed.

(** X8: the order of the stored terms does not matter.  Two documents
    whose visitations return the same terms in a different order, with the
    same error or none, get the same answer from the filter. *)
Theorem buildDistFilter_order_irrelevant
    (dvReader : DocumentValueReader) (centerLon centerLat maxDist : float)
    (d1 d2 : DocumentMatch) (terms1 terms2 : list (string * Term))
    (err : option error) :
  VisitDocumentValues dvReader (Number d1) = (terms1, err) ->
  VisitDocumentValues dvReader (Number d2) = (terms2, err) ->
  Permutation terms1 terms2 ->
  buildDistFilter dvReader centerLon centerLat maxDist d1
  = buildDistFilter dvReader centerLon centerLat maxDist d2.
Proof.
  intros Hv1 Hv2 Hperm. rewrite !buildDistFilter_codes, Hv1, Hv2.
  cbn [fst snd]. destruct err; [reflexivity|].
  apply existsb_Permutation. unfold codes.
  apply Permutation_flat_map. exact Hperm.
Qed.

(** X9: more stored terms never turn an accepted document into a rejected
    one.  If the filter accepts a document and every term visited on it is
    also visited on a second document whose visitation returns no error, the
    filter accepts the second document. *)
Theorem buildDistFilter_monotone_in_terms
    (dvReader : DocumentValueReader) (centerLon centerLat maxDist : float)
    (d1 d2 : DocumentMatch) (terms1 terms2 : list (string * Term))
    (err1 : option error) :
  VisitDocumentValues dvReader (Number d1) = (terms1, err1) ->
  VisitDocumentValues dvReader (Number d2) = (terms2, None) ->
  incl terms1 terms2 ->
  buildDistFilter dvReader centerLon centerLat maxDist d1 = true ->
  buildDistFilter dvReader centerLon centerLat maxDist d2 = true.
Proof.
  intros Hv1 Hv2 Hincl. rewrite !buildDistFilter_codes, Hv1, Hv2.
  cbn [fst snd]. destruct err1; [discriminate|].
  rewrite !existsb_exists. intros (u & Hin & Hu). exists u.
  split; [|exact Hu]. unfold codes in *. apply in_flat_map in Hin.
  destruct Hin as (ft & Hft & Hcode). apply in_flat_map.
  exists ft. split; [apply Hincl; exact Hft | exact Hcode].
Qed.

(** X10: the visitor does not look at the field name.  Two documents whose
    visitations return the same term bytes in the same order under whatever
    field names, with the same error or none, collect the same coordinates
    and get the same answer. *)
Theorem buildDistFilter_ignores_field_names
    (dvReader : DocumentValueReader) (centerLon centerLat maxDist : float)
    (d1 d2 : DocumentMatch) (terms1 terms2 : list (string * Term))
    (err : option error) :
  VisitDocumentValues dvReader (Number d1) = (terms1, err) ->
  VisitDocumentValues dvReader (Number d2) = (terms2, err) ->
  map snd terms1 = map snd terms2 ->
  visitAll terms1 noneVisited = visitAll terms2 noneVisited /\
  buildDistFilter dvReader centerLon centerLat maxDist d1
  = buildDistFilter dvReader centerLon centerLat maxDist d2.
Proof.
  intros Hv1 Hv2 Hmap.
  pose proof (visitAll_fields terms1 terms2 noneVisited Hmap) as Hsame.
  split; [exact Hsame|].
  rewrite !buildDistFilter_visited, Hv1, Hv2. cbn [fst snd]. cbv zeta.
  rewrite Hsame. reflexivity.
Qed.

(** X11: a NaN distance accepts nothing.  When [maxDist] is NaN the filter
    rejects every document, whatever is stored for it. *)
Theorem buildDistFilter_nan_distance_rejects
    (dvReader : DocumentValueReader) (centerLon centerLat maxDist : float)
    (d : DocumentMatch) :
  is_nan maxDist = true ->
  buildDistFilter dvReader centerLon centerLat maxDist d = false.
Proof.
  intros Hnan. rewrite buildDistFilter_codes.
  destruct (snd (VisitDocumentValues dvReader (Number d))); [reflexivity|].
  apply not_true_is_false. rewrite existsb_exists. intros (u & _ & Hu).
  unfold within in Hu.
  rewrite (leb_nan_r _ _ (div_nan_l maxDist 1000 Hnan)) in Hu.
  discriminate.
Qed.

End FilterProperties.

(** * The properties on the test doubles *)

Section Examples.
Import Mock.

(** No crossing: one box over [9, 9, 11, 11], returned as built. *)
Lemma boxSearcher_no_crossing_single_box_witness :
  boxSearcher (C := engine) tt 9 11 11 9 loc 1 tt "tf"%string tt true 4%N ([], [])
  = (inr (MBox 9 9 11 11 true),
     ([], [EvGeoBoundingBox tt 9 9 11 11 loc 1 tt "tf"%string tt true 4%N])).
Proof.
  apply (boxSearcher_no_crossing_single_box (C := engine)
           tt 9 11 11 9 loc 1 tt "tf"%string tt true 4%N [] []).
  reflexivity.
Defined.

(** Crossing: the box from 170 east to -170 becomes two boxes and their
    disjunction. *)
Lemma boxSearcher_dateline_split_witness :
  boxSearcher (C := engine) tt 170 10 (-170) (-10) loc 1 tt "tf"%string tt false 4%N
    ([], [])
  = (inr (MDisj [MBox (-180) (-10) (-170) 10 false;
                 MBox 170 (-10) 180 10 false] 0 "sum"),
     ([],
      [EvGeoBoundingBox tt (-180) (-10) (-170) 10 loc 1 tt "tf"%string tt
         false 4%N;
       EvGeoBoundingBox tt 170 (-10) 180 10 loc 1 tt "tf"%string tt
         false 4%N;
       EvDisjunction tt [MBox (-180) (-10) (-170) 10 false;
                         MBox 170 (-10) 180 10 false] 0 "sum"%string tt])).
Proof.
  apply (boxSearcher_dateline_split (C := engine)
           tt 170 10 (-170) (-10) loc 1 tt "tf"%string tt false 4%N
           [] [] [] [] []); reflexivity.
Defined.

(** Crossing, with the second and with the third constructor failing; the
    test double's [Close] fails too, and its error is not the one returned. *)
Lemma boxSearcher_dateline_cleanup_witness :
  boxSearcher (C := engine) tt 170 10 (-170) (-10) loc 1 tt "tf"%string tt false 4%N
    ([None; Some "right failed"%string], [])
  = (inl "right failed"%string,
     ([],
      [EvGeoBoundingBox tt (-180) (-10) (-170) 10 loc 1 tt "tf"%string tt
         false 4%N;
       EvGeoBoundingBox tt 170 (-10) 180 10 loc 1 tt "tf"%string tt
         false 4%N;
       EvClose (MBox (-180) (-10) (-170) 10 false)]))
  /\
  boxSearcher (C := engine) tt 170 10 (-170) (-10) loc 1 tt "tf"%string tt false 4%N
    ([None; None; Some "disjunction failed"%string], [])
  = (inl "disjunction failed"%string,
     ([],
      [EvGeoBoundingBox tt (-180) (-10) (-170) 10 loc 1 tt "tf"%string tt
         false 4%N;
       EvGeoBoundingBox tt 170 (-10) 180 10 loc 1 tt "tf"%string tt
         false 4%N;
       EvDisjunction tt [MBox (-180) (-10) (-170) 10 false;
                         MBox 170 (-10) 180 10 false] 0 "sum"%string tt;
       EvClose (MBox (-180) (-10) (-170) 10 false);
       EvClose (MBox 170 (-10) 180 10 false)])).
Proof.
  split.
  - apply (proj1 (boxSearcher_dateline_cleanup (C := engine)
                    tt 170 10 (-170) (-10) loc 1 tt "tf"%string tt false 4%N
                    [None; Some "right failed"%string]
                    [Some "right failed"%string] [] []
                    (MBox (-180) (-10) (-170) 10 false)
                    eq_refl eq_refl)).
    reflexivity.
  - apply (proj2 (boxSearcher_dateline_cleanup (C := engine)
                    tt 170 10 (-170) (-10) loc 1 tt "tf"%string tt false 4%N
                    [None; None; Some "disjunction failed"%string]
                    [None; Some "disjunction failed"%string]
                    [Some "disjunction failed"%string] []
                    (MBox (-180) (-10) (-170) 10 false)
                    eq_refl eq_refl)
                 (MBox 170 (-10) 180 10 false)
                 "disjunction failed"%string []); reflexivity.
Defined.

(** A query around (10, 10): the rectangle is [9, 11, 11, 9], one box, and
    the result wraps it with the distance filter; a negative distance fails
    in the rectangle computation and nothing else is called. *)
Lemma NewGeoPointDistanceSearcher_outcome_witness :
  NewGeoPointDistanceSearcher (C := engine) tt 10 10 111000 loc 1 tt
    "tf"%string tt 4%N ([], [])
  = (inr (MFilter (MBox 9 9 11 11 false)
            (buildDistFilter (C := engine) tt 10 10 111000)),
     ([],
      [EvRectFromPointDistance 10 10 111000;
       EvGeoBoundingBox tt 9 9 11 11 loc 1 tt "tf"%string tt false 4%N;
       EvDocumentValueReader tt [loc]]))
  /\
  NewGeoPointDistanceSearcher (C := engine) tt 10 10 (-1) loc 1 tt
    "tf"%string tt 4%N ([], [])
  = (inl "negative distance"%string,
     ([], [EvRectFromPointDistance 10 10 (-1)])).
Proof.
  split.
  - pose proof (NewGeoPointDistanceSearcher_outcome (C := engine)
                  tt 10 10 111000 loc 1 tt "tf"%string tt 4%N [] [])
      as (_ & _ & _ & Hok & _).
    apply (Hok (9, 11, 11, 9) (MBox 9 9 11 11 false) []
             [EvRectFromPointDistance 10 10 111000;
              EvGeoBoundingBox (H := types) tt 9 9 11 11 loc 1 tt
                "tf"%string tt false 4%N]
             tt []); reflexivity.
  - pose proof (NewGeoPointDistanceSearcher_outcome (C := engine)
                  tt 10 10 (-1) loc 1 tt "tf"%string tt 4%N [] [])
      as (Hrect & _).
    apply Hrect. reflexivity.
Defined.

(** A query around (179.5, 0) crosses the antimeridian: the rectangle is
    [178.5, 1, -179.5, -1], the calls after it are those of [boxSearcher] on
    it without boundary checking and then the value reader, and the searcher
    returned wraps the searcher of that run. *)
Lemma NewGeoPointDistanceSearcher_no_boundary_check_witness :
  let out :=
    NewGeoPointDistanceSearcher (C := engine) tt 179.5 0 111000 loc 1 tt
      "tf"%string tt 4%N ([], []) in
  let boxOut :=
    boxSearcher (C := engine) tt 178.5 1 (-179.5) (-1) loc 1 tt
      "tf"%string tt false 4%N
      ([], [] ++ [EvRectFromPointDistance 179.5 0 111000]) in
  (exists rest : list Event,
      snd (snd out) = snd (snd boxOut) ++ rest /\
      (rest = [] \/ rest = [EvDocumentValueReader tt [loc]]))
  /\
  (exists evs : list Event,
      snd (snd boxOut)
      = ([] ++ [EvRectFromPointDistance 179.5 0 111000]) ++ evs /\
      existsb isUncheckedBox evs = true /\
      forallb noBoundaryCheck evs = true)
  /\
  (exists (box : Searcher) (dvReader : DocumentValueReader),
      fst boxOut = inr box /\
      fst out = inr (NewFilteringSearcher box
                       (buildDistFilter dvReader 179.5 0 111000))).
Proof.
  intros out boxOut.
  pose proof (NewGeoPointDistanceSearcher_no_boundary_check (C := engine)
                tt 179.5 0 111000 loc 1 tt "tf"%string tt 4%N [] [])
    as (_ & _ & Hbox & _).
  specialize (Hbox 178.5 1 (-179.5) (-1) eq_refl).
  cbv zeta in Hbox. destruct Hbox as (Hrest & Hevs & _ & Hwrap).
  split; [exact Hrest | split; [exact Hevs|]].
  destruct (Hwrap _ eq_refl) as (box & dvReader & Hbuilt & Hs).
  exists box, dvReader. split; [exact Hbuilt|].
  rewrite <- Hs. reflexivity.
Defined.

(** C5: here the code does not release the box searcher.  The rectangle and
    the box searcher are built, acquiring the document value reader fails:
    [NewGeoPointDistanceSearcher] returns that error and the trace ends with
    the failed acquisition, with no [Close] of the box searcher on it. *)
Theorem NewGeoPointDistanceSearcher_reader_failure_leaves_box_open :
  let out :=
    NewGeoPointDistanceSearcher (C := engine) tt 10 10 111000 loc 1 tt
      "tf"%string tt 4%N ([None; Some "no doc values"%string], []) in
  out = (inl "no doc values"%string,
         ([],
          [EvRectFromPointDistance 10 10 111000;
           EvGeoBoundingBox tt 9 9 11 11 loc 1 tt "tf"%string tt false 4%N;
           EvDocumentValueReader tt [loc]]))
  /\ filter isClose (snd (snd out)) = [].
Proof. split; reflexivity. Qed.

(** Document 1 holds a far and a near point: accepted. *)
Lemma buildDistFilter_existential_witness :
  buildDistFilter (C := engine) tt 10 10 5000 (q 1) = true.
Proof.
  apply (proj2 (buildDistFilter_existential (C := engine)
                  tt 10 10 5000 (q 1) [far; near] eq_refl)).
  exists loc, [x20; x0a; x0b], 2571%Z.
  repeat split; try reflexivity. right; left; reflexivity.
Defined.

(** Document 4 is document 2 with one more term, of shift 1, that would
    decode to the query center: both are rejected, with the same collected
    coordinates. *)
Lemma buildDistFilter_ignores_coarse_terms_witness :
  visitAll (C := engine) [coarseNear; far] noneVisited
  = visitAll (C := engine) [far] noneVisited
  /\ buildDistFilter (C := engine) tt 10 10 5000 (q 4)
     = buildDistFilter (C := engine) tt 10 10 5000 (q 2).
Proof.
  apply (buildDistFilter_ignores_coarse_terms (C := engine)
           tt 10 10 5000 (q 4) (q 2) [coarseNear; far] [far] None None);
    reflexivity.
Defined.

(** Document 3 holds the near point of document 0 and its visitation fails:
    rejected, where document 0 is accepted. *)
Lemma buildDistFilter_rejects_on_visit_error_witness :
  buildDistFilter (C := engine) tt 10 10 5000 (q 3) = false.
Proof.
  apply (buildDistFilter_rejects_on_visit_error (C := engine)
           tt 10 10 5000 (q 3) [near] "read failed"%string).
  reflexivity.
Defined.

(** Document 5 is document 7 with one more term, whose shift does not
    decode; document 6 is document 2 with one more term, of shift 0, whose
    integer does not decode. *)
Lemma buildDistFilter_skips_undecodable_term_witness :
  buildDistFilter (C := engine) tt 10 10 5000 (q 5)
  = buildDistFilter (C := engine) tt 10 10 5000 (q 7)
  /\ buildDistFilter (C := engine) tt 10 10 5000 (q 6)
     = buildDistFilter (C := engine) tt 10 10 5000 (q 2).
Proof.
  split.
  - apply (buildDistFilter_skips_undecodable_term (C := engine)
             tt 10 10 5000 (q 5) (q 7) [] [noInt64; near] loc [] None
             eq_refl eq_refl).
    left. exists "empty term"%string. reflexivity.
  - apply (buildDistFilter_skips_undecodable_term (C := engine)
             tt 10 10 5000 (q 6) (q 2) [far] [] loc [x20] None
             eq_refl eq_refl).
    right. split; [reflexivity|]. exists "bad length"%string. reflexivity.
Defined.

(** The filter on the eight documents of the test double. *)
Example buildDistFilter_on_documents :
  map (fun number => buildDistFilter (C := engine) tt 10 10 5000 (q number))
      [0; 1; 2; 3; 4; 5; 6; 7]%N
  = [true; true; false; false; false; true; false; true].
Proof. reflexivity. Qed.

End Examples.

(** * The further properties on the test doubles *)

Section MoreExamples.
Import Mock.

(** Crossing, with the first constructor failing: one call, the error. *)
Lemma boxSearcher_left_failure_witness :
  boxSearcher (C := Mock.engine) tt 170 10 (-170) (-10) loc 1 tt
    "tf"%string tt false 4%N ([Some "left failed"%string; None], [])
  = (inl "left failed"%string,
     ([None],
      [EvGeoBoundingBox tt (-180) (-10) (-170) 10 loc 1 tt "tf"%string tt
         false 4%N])).
Proof.
  apply (boxSearcher_left_failure (C := Mock.engine)
           tt 170 10 (-170) (-10) loc 1 tt "tf"%string tt false 4%N
           [Some "left failed"%string; None] [None] []
           "left failed"%string); reflexivity.
Defined.

(** A NaN left edge: one box over the rectangle as given. *)
Lemma boxSearcher_nan_longitude_single_box_witness :
  boxSearcher (C := Mock.engine) tt nan 10 (-170) (-10) loc 1 tt
    "tf"%string tt false 4%N ([], [])
  = (inr (MBox nan (-10) (-170) 10 false),
     ([],
      [EvGeoBoundingBox tt nan (-10) (-170) 10 loc 1 tt "tf"%string tt
         false 4%N])).
Proof.
  apply (boxSearcher_nan_longitude_single_box (C := Mock.engine)
           tt nan 10 (-170) (-10) loc 1 tt "tf"%string tt false 4%N [] []).
  left. reflexivity.
Defined.

(** The query around (10, 10) succeeds and closes nothing. *)
Lemma NewGeoPointDistanceSearcher_success_closes_nothing_witness :
  exists evs : list Event,
    snd (snd (NewGeoPointDistanceSearcher (C := Mock.engine) tt 10 10 111000
                loc 1 tt "tf"%string tt 4%N ([], [])))
    = [] ++ evs
    /\ filter isClose evs = [].
Proof.
  apply (NewGeoPointDistanceSearcher_success_closes_nothing
           (C := Mock.engine) tt 10 10 111000 loc 1 tt "tf"%string tt 4%N
           [] []
           (MFilter (MBox 9 9 11 11 false)
              (buildDistFilter (C := Mock.engine) tt 10 10 111000))).
  reflexivity.
Defined.

(** The query around (179.5, 0) with a radius of one degree: the rectangle
    runs from 178.5 east to -179.5. *)
Lemma NewGeoPointDistanceSearcher_across_dateline_witness :
  NewGeoPointDistanceSearcher (C := Mock.engine) tt 179.5 0 111000 loc 1 tt
    "tf"%string tt 4%N ([], [])
  = (inr (MFilter
            (MDisj [MBox (-180) (-1) (-179.5) 1 false;
                    MBox 178.5 (-1) 180 1 false] 0 "sum")
            (buildDistFilter (C := Mock.engine) tt 179.5 0 111000)),
     ([],
      [EvRectFromPointDistance 179.5 0 111000;
       EvGeoBoundingBox tt (-180) (-1) (-179.5) 1 loc 1 tt "tf"%string tt
         false 4%N;
       EvGeoBoundingBox tt 178.5 (-1) 180 1 loc 1 tt "tf"%string tt
         false 4%N;
       EvDisjunction tt [MBox (-180) (-1) (-179.5) 1 false;
                         MBox 178.5 (-1) 180 1 false] 0 "sum"%string tt;
       EvDocumentValueReader tt [loc]])).
Proof.
  apply (NewGeoPointDistanceSearcher_across_dateline (C := Mock.engine)
           tt 179.5 0 111000 loc 1 tt "tf"%string tt 4%N
           [] [] [] [] [] [] 178.5 1 (-179.5) (-1)
           (MBox (-180) (-1) (-179.5) 1 false)
           (MBox 178.5 (-1) 180 1 false)
           (MDisj [MBox (-180) (-1) (-179.5) 1 false;
                   MBox 178.5 (-1) 180 1 false] 0 "sum")
           tt); reflexivity.
Defined.

(** Documents 1 and 8 hold the same two terms in either order. *)
Lemma buildDistFilter_order_irrelevant_witness :
  buildDistFilter (C := MockMore.engine) tt 10 10 5000 (q 1)
  = buildDistFilter (C := MockMore.engine) tt 10 10 5000 (q 8).
Proof.
  apply (buildDistFilter_order_irrelevant (C := MockMore.engine)
           tt 10 10 5000 (q 1) (q 8) [far; near] [near; far] None
           eq_refl eq_refl).
  apply perm_swap.
Defined.

(** Document 0 is accepted, so is document 1, which holds its term and
    one more. *)
Lemma buildDistFilter_monotone_in_terms_witness :
  buildDistFilter (C := Mock.engine) tt 10 10 5000 (q 1) = true.
Proof.
  apply (buildDistFilter_monotone_in_terms (C := Mock.engine)
           tt 10 10 5000 (q 0) (q 1) [near] [far; near] None
           eq_refl eq_refl).
  - intros ft [<- | []]. right; left; reflexivity.
  - reflexivity.
Defined.

(** Documents 0 and 9 hold the same bytes under two field names. *)
Lemma buildDistFilter_ignores_field_names_witness :
  visitAll (C := MockMore.engine) [near] noneVisited
  = visitAll (C := MockMore.engine) [("geo"%string, snd near)] noneVisited
  /\ buildDistFilter (C := MockMore.engine) tt 10 10 5000 (q 0)
     = buildDistFilter (C := MockMore.engine) tt 10 10 5000 (q 9).
Proof.
  apply (buildDistFilter_ignores_field_names (C := MockMore.engine)
           tt 10 10 5000 (q 0) (q 9) [near] [("geo"%string, snd near)] None
           eq_refl eq_refl).
  reflexivity.
Defined.

(** Document 0 holds a point one unit from the center: rejected under a NaN
    distance. *)
Lemma buildDistFilter_nan_distance_rejects_witness :
  buildDistFilter (C := Mock.engine) tt 10 10 nan (q 0) = false.
Proof.
  apply (buildDistFilter_nan_distance_rejects (C := Mock.engine)
           tt 10 10 nan (q 0)).
  reflexivity.
Defined.

End MoreExamples.
